(** * cytorch: tensors and autograd variables

    A shallow embedding of [cytorch/tensor.c] and of the variable layer
    (constructors, printing, [set_to_scalar], the atomic operations [_add],
    [_subtract], [_multiply], [_abs], [_sum] and their backward functions),
    with the properties of these functions that the specification states.

    Memory is explicit: entry buffers obtained from [calloc] and variable
    records obtained from [malloc] live in a store, and every function of
    the source is a computation over that store which either returns or
    stops at a failed assertion or an invalid access.  The [tensor_t]
    struct that [_new_tensor] builds is a compound literal of that
    function: its lifetime ends when the function returns, and what the
    caller finds at its address afterwards is a parameter of the model
    ([after_return]). *)

From Stdlib Require Import Ascii.
From stdpp Require Import base numbers option list strings gmap.

Set Default Proof Using "Type".
Open Scope N_scope.

(** [tensor_size_t] and [size_t] are 64 bits wide. *)
Definition size_modulus : N := 2 ^ 64.
Definition wrap (n : N) : N := n mod size_modulus.

(** ** Scalars

    [tensor_entry_t] is declared in [tensor.h]; the functions below only
    use the operations collected in this interface. *)

Class Scalar (E : Type) := {
  (** the value of an entry whose bytes [calloc] cleared *)
  scalar_zero : E;
  (** conversion of an integer literal, as in the argument [-1] *)
  scalar_of_int : Z → E;
  scalar_plus : E → E → E;
  scalar_minus : E → E → E;
  scalar_times : E → E → E;
  scalar_abs : E → E;
  scalar_sign : E → E;
  (** [sizeof(tensor_entry_t)], a [size_t] of at least one byte *)
  scalar_sizeof : N;
  scalar_sizeof_pos : 0 < scalar_sizeof;
  scalar_sizeof_bound : scalar_sizeof < size_modulus
}.

#[export] Instance Z_Scalar : Scalar Z := {|
  scalar_zero := 0%Z;
  scalar_of_int := λ z, z;
  scalar_plus := Z.add;
  scalar_minus := Z.sub;
  scalar_times := Z.mul;
  scalar_abs := Z.abs;
  scalar_sign := Z.sgn;
  scalar_sizeof := 8;
  scalar_sizeof_pos := eq_refl;
  scalar_sizeof_bound := eq_refl
|}.

(** ** Store and computations *)

Abbreviation loc := positive (only parsing).

(** A [tensor_t] as a read through a [tensor_t*] finds it: the buffer it
    points to and its two dimensions.  The code never assigns a field
    after construction. *)
Record tensor_t := Tensor {
  data : loc;
  num_rows : N;
  num_columns : N
}.

(** [_new_tensor] returns the address of a compound literal declared in
    its body.  The literal has automatic storage, so the object is dead
    when the caller receives its address, and the C standard leaves every
    later read through that address undefined.  [after_return t] is what
    such a read finds where the literal [t] was: nothing in the source
    determines it. *)
Class DeadStorage := {
  after_return : tensor_t → tensor_t
}.

(** Addresses of the backward functions stored in a [grad_meta]. *)
Inductive binary_backward_fn :=
  | ptr_add_grad_backwards
  | ptr_subtract_grad_backwards
  | ptr_multiply_grad_backwards.

Inductive unary_backward_fn :=
  | ptr_abs_grad_backwards
  | ptr_sum_grad_backwards.

(** Modelled from the spec: the provenance record of [grad.h], which is
    not part of the sources at hand.  It lists the operand variables (none
    for a leaf, one for a unary operation, two for a binary one) and one
    backward function per operand. *)
Inductive grad_meta_t :=
  | LeafMeta
  | UnaryMeta (arg : loc) (arg_fn : unary_backward_fn)
  | BinaryMeta (left_arg right_arg : loc) (left_fn right_fn : binary_backward_fn).

Record variable_t := Variable_ {
  tensor : tensor_t;
  gradient : tensor_t;
  grad_meta : grad_meta_t
}.

#[export] Instance tensor_eq_dec : EqDecision tensor_t.
Proof. solve_decision. Defined.
#[export] Instance binary_backward_fn_eq_dec : EqDecision binary_backward_fn.
Proof. solve_decision. Defined.
#[export] Instance unary_backward_fn_eq_dec : EqDecision unary_backward_fn.
Proof. solve_decision. Defined.
#[export] Instance grad_meta_eq_dec : EqDecision grad_meta_t.
Proof. solve_decision. Defined.

Inductive operand_slot := LeftSlot | RightSlot.

Inductive error :=
  | ShapeMismatch      (* a failed compatibility assertion *)
  | IndexOutOfRange    (* an entry access outside of a buffer *)
  | InvalidPointer     (* a buffer or variable that was never allocated *)
  | NoSuchOperand      (* a backward call on a child without that operand *)
  | AllocationFailed   (* a null result of calloc, which the code never checks *)
  | InvalidArrayLength (* a variable-length array of a length that is not positive *)
  | ArgumentsExhausted (* va_arg with no argument left to read *)
  | InvalidShape.      (* a shape of rank zero or with an extent of zero *)

Record store (E : Type) := Store {
  buffers : gmap loc (list E);
  variables : gmap loc variable_t
}.
Arguments Store {E} _ _.
Arguments buffers {E} _.
Arguments variables {E} _.

Inductive outcome (E A : Type) :=
  | Returned (a : A) (s : store E)
  | Failed (e : error) (s : store E).
Arguments Returned {E A} a s.
Arguments Failed {E A} e s.

(** A computation of the program: it runs from a store and either returns
    a value or fails, in both cases leaving a store behind. *)
Definition M (E A : Type) : Type := store E → outcome E A.

#[export] Instance M_ret {E} : MRet (M E) := λ A a s, Returned a s.
#[export] Instance M_bind {E} : MBind (M E) := λ A B k m s,
  match m s with
  | Returned a s' => k a s'
  | Failed e s' => Failed e s'
  end.
Definition fail {E A} (e : error) : M E A := λ s, Failed e s.

Section Tensor.
Context {E : Type} `{Scalar E} {literal : DeadStorage}.

(** *** Helpers standing for the C library *)

(** [calloc(n, sizeof(tensor_entry_t))]: a buffer of [n] cleared entries at
    an address that is not in use, or a null pointer when the byte size
    [n * sizeof(tensor_entry_t)] cannot be represented in a [size_t].  The
    source never checks the result.  Nothing can be read or written
    through a null pointer, so the model ends the call at the allocation,
    with [AllocationFailed], rather than carry a null address on.  For a
    count of zero the buffer is empty: whichever pointer the library
    returns, it admits no access.  Memory is otherwise taken to suffice. *)
Definition calloc (n : N) : M E loc := λ s,
  if decide (n * scalar_sizeof < size_modulus)
  then
    let l := fresh (dom (buffers s)) in
    Returned l (Store (<[l := replicate (N.to_nat n) scalar_zero]> (buffers s))
                      (variables s))
  else Failed AllocationFailed s.

Definition read_buffer (l : loc) : M E (list E) := λ s,
  match buffers s !! l with
  | Some buf => Returned buf s
  | None => Failed InvalidPointer s
  end.

Definition write_buffer (l : loc) (buf : list E) : M E unit := λ s,
  Returned tt (Store (<[l := buf]> (buffers s)) (variables s)).

(** [memcpy(dst, src, n)] at the granularity of entries: [n] bytes hold
    [n / sizeof(tensor_entry_t)] entries. *)
Definition memcpy (dst src : loc) (n : N) : M E unit :=
  let count := N.to_nat (n `div` scalar_sizeof) in
  src_buf ← read_buffer src;
  dst_buf ← read_buffer dst;
  if decide (count ≤ length src_buf ∧ count ≤ length dst_buf)%nat
  then write_buffer dst (take count src_buf ++ drop count dst_buf)
  else fail IndexOutOfRange.

(** [for (index = start; index < start + count; index++) body(index)] *)
Fixpoint for_range (start : N) (count : nat) (body : N → M E unit)
  : M E unit :=
  match count with
  | O => mret tt
  | S count' => body start ;; for_range (N.succ start) count' body
  end.

(** *** tensor.c *)

Definition _tensor_get_size (tensor : tensor_t) : N :=
  wrap (num_rows tensor * num_columns tensor).

Definition _tensor_get_size_in_bytes (tensor : tensor_t) : N :=
  wrap (_tensor_get_size tensor * scalar_sizeof).

(** The function returns [&(tensor_t){...}]: the caller receives the
    address of the dead literal, and reads [after_return] of it there. *)
Definition _new_tensor (num_rows num_columns : N) : M E tensor_t :=
  let num_entries := wrap (num_rows * num_columns) in
  raw_data ← calloc num_entries;
  mret (after_return (Tensor raw_data num_rows num_columns)).

Definition _new_tensor_like (old_tensor : tensor_t) : M E tensor_t :=
  _new_tensor (num_rows old_tensor) (num_columns old_tensor).

Definition _new_tensor_zeros_like (old_tensor : tensor_t) : M E tensor_t :=
  _new_tensor (num_rows old_tensor) (num_columns old_tensor).

Definition _copy_tensor (old_tensor : tensor_t) : M E tensor_t :=
  new_tensor ← _new_tensor_like old_tensor;
  memcpy (data new_tensor) (data old_tensor)
         (_tensor_get_size_in_bytes old_tensor);;
  mret new_tensor.

(** Returns true if and only if tensor dimensions match exactly. *)
Definition _tensor_exact_compatible (left_tensor right_tensor : tensor_t) : bool :=
  (num_columns left_tensor =? num_columns right_tensor)
  && (num_rows left_tensor =? num_rows right_tensor).

Definition _tensor_broadcast_compatible (left_tensor right_tensor : tensor_t) : bool :=
  _tensor_exact_compatible left_tensor right_tensor.

Definition _scalar_add (left_scalar right_scalar : E) : E :=
  scalar_plus left_scalar right_scalar.

Definition _scalar_multiply (left_scalar right_scalar : E) : E :=
  scalar_times left_scalar right_scalar.

Definition _scalar_subtract (left_scalar right_scalar : E) : E :=
  scalar_minus left_scalar right_scalar.

(** Modelled from the spec: the macro [DEBUG_ASSERT] is not part of the
    sources at hand.  A false condition stops the call where it stands,
    with the error the specification names for that check. *)
Definition DEBUG_ASSERT (condition : bool) (e : error) : M E unit :=
  if condition then mret tt else fail e.

(** Modelled from the spec: [_tensor_get_entry] and [_tensor_set_entry]
    (flat index) are declared in [tensor.h] only.  An index outside of the
    buffer is [IndexOutOfRange]. *)
Definition _tensor_get_entry (tensor : tensor_t) (index : N) : M E E :=
  buf ← read_buffer (data tensor);
  match buf !! N.to_nat index with
  | Some entry => mret entry
  | None => fail IndexOutOfRange
  end.

Definition _tensor_set_entry (tensor : tensor_t) (entry : E) (index : N) : M E unit :=
  buf ← read_buffer (data tensor);
  if decide (N.to_nat index < length buf)%nat
  then write_buffer (data tensor) (<[N.to_nat index := entry]> buf)
  else fail IndexOutOfRange.

(** Modelled from the spec: [_tensor_get_entry_row_column] and
    [_tensor_set_entry_row_column] are declared in [tensor.h] only.  Entries
    are stored in row-major order: the flat index of (row, column) is
    [row * num_columns + column], computed in [tensor_size_t]. *)
Definition _tensor_get_entry_row_column (tensor : tensor_t) (row column : N) : M E E :=
  _tensor_get_entry tensor (wrap (row * num_columns tensor + column)).

Definition _tensor_set_entry_row_column (tensor : tensor_t) (row column : N)
    (entry : E) : M E unit :=
  _tensor_set_entry tensor entry (wrap (row * num_columns tensor + column)).

Definition _populate_tensor (tensor : tensor_t) (row_column_fn : N → N → E) : M E unit :=
  for_range 0 (N.to_nat (num_rows tensor)) (λ row,
    for_range 0 (N.to_nat (num_columns tensor)) (λ column,
      let new_entry := row_column_fn row column in
      _tensor_set_entry_row_column tensor row column new_entry)).

Definition _tensor_broadcast_scalar_fn (left_tensor right_tensor : tensor_t)
    (tensor_scalar_fn : E → E → E) : M E tensor_t :=
  DEBUG_ASSERT (_tensor_broadcast_compatible left_tensor right_tensor) ShapeMismatch;;
  new_tensor ← _new_tensor_like left_tensor;
  for_range 0 (N.to_nat (_tensor_get_size left_tensor)) (λ index,
    left_entry ← _tensor_get_entry left_tensor index;
    right_entry ← _tensor_get_entry right_tensor index;
    let new_entry := tensor_scalar_fn left_entry right_entry in
    _tensor_set_entry new_tensor new_entry index);;
  mret new_tensor.

Definition _tensor_add (left_tensor right_tensor : tensor_t) : M E tensor_t :=
  _tensor_broadcast_scalar_fn left_tensor right_tensor _scalar_add.

Definition _tensor_subtract (left_tensor right_tensor : tensor_t) : M E tensor_t :=
  _tensor_broadcast_scalar_fn left_tensor right_tensor _scalar_subtract.

Definition _tensor_multiply (left_tensor right_tensor : tensor_t) : M E tensor_t :=
  _tensor_broadcast_scalar_fn left_tensor right_tensor _scalar_multiply.

(** *** Tensor functions declared in tensor.h only *)

(** Modelled from the spec: the "new Tensor" that a function declared in
    [tensor.h] only returns.  Their bodies are not in the sources at hand;
    as the specification describes them, the result is a tensor of the
    given dimensions that can be read, whose buffer was not in use. *)
Definition new_tensor_holding (num_rows num_columns : N) (entries : list E)
    : M E tensor_t := λ s,
  let l := fresh (dom (buffers s)) in
  Returned (Tensor l num_rows num_columns)
    (Store (<[l := entries]> (buffers s)) (variables s)).

(** Modelled from the spec: [_tensor_set_to_scalar_value] overwrites every
    entry of the tensor in place. *)
Definition _tensor_set_to_scalar_value (tensor : tensor_t) (value : E) : M E unit :=
  buf ← read_buffer (data tensor);
  write_buffer (data tensor) (replicate (length buf) value).

(** Modelled from the spec: [_tensor_multiply_by_scalar_value] scales every
    entry of the tensor in place. *)
Definition _tensor_multiply_by_scalar_value (tensor : tensor_t) (value : E) : M E unit :=
  buf ← read_buffer (data tensor);
  write_buffer (data tensor) ((λ entry, scalar_times entry value) <$> buf).

(** Modelled from the spec: [_tensor_multiply_existing] multiplies the left
    tensor in place, entry by entry, by the right tensor of the same shape. *)
Definition _tensor_multiply_existing (left_tensor right_tensor : tensor_t) : M E unit :=
  DEBUG_ASSERT (_tensor_broadcast_compatible left_tensor right_tensor) ShapeMismatch;;
  left_buf ← read_buffer (data left_tensor);
  right_buf ← read_buffer (data right_tensor);
  if decide (length left_buf ≤ length right_buf)%nat
  then write_buffer (data left_tensor) (zip_with scalar_times left_buf right_buf)
  else fail IndexOutOfRange.

(** Modelled from the spec: [_tensor_abs] returns a new tensor holding the
    absolute value of every entry. *)
Definition _tensor_abs (tensor : tensor_t) : M E tensor_t :=
  buf ← read_buffer (data tensor);
  new_tensor_holding (num_rows tensor) (num_columns tensor) (scalar_abs <$> buf).

(** Modelled from the spec: [_tensor_abs_grad] returns a new tensor holding
    the sign of every entry. *)
Definition _tensor_abs_grad (tensor : tensor_t) : M E tensor_t :=
  buf ← read_buffer (data tensor);
  new_tensor_holding (num_rows tensor) (num_columns tensor) (scalar_sign <$> buf).

(** Modelled from the spec: [_tensor_sum] returns a new 1x1 tensor whose
    entry is the sum of all entries. *)
Definition _tensor_sum (tensor : tensor_t) : M E tensor_t :=
  buf ← read_buffer (data tensor);
  new_tensor_holding 1 1 [foldl scalar_plus scalar_zero buf].

(** Modelled from the spec: [_tensor_sum_grad] returns a new tensor of the
    shape of its argument with every entry equal to 1. *)
Definition _tensor_sum_grad (tensor : tensor_t) : M E tensor_t :=
  new_tensor_holding (num_rows tensor) (num_columns tensor)
    (replicate (N.to_nat (_tensor_get_size tensor)) (scalar_of_int 1)).

End Tensor.

(** ** The variable layer *)

(** Modelled from the spec: a shape of [shape.h], which is not part of the
    sources at hand: the rank and one extent per axis. *)
Record shape_t := Shape {
  shape_num_dims : Z;
  shape_dims : list N
}.

Section Variables.
Context {E : Type} `{Scalar E} {literal : DeadStorage}.

(** [malloc(sizeof(variable_t))] followed by the assignment of the three
    fields: a variable record at an address that is not in use. *)
Definition malloc_variable (contents : variable_t) : M E loc := λ s,
  let p := fresh (dom (variables s)) in
  Returned p (Store (buffers s) (<[p := contents]> (variables s))).

(** Reading the fields of [*variable]. *)
Definition load_variable (variable : loc) : M E variable_t := λ s,
  match variables s !! variable with
  | Some contents => Returned contents s
  | None => Failed InvalidPointer s
  end.

(** Assigning the fields of [*variable]. *)
Definition store_variable (variable : loc) (contents : variable_t) : M E unit := λ s,
  Returned tt (Store (buffers s) (<[variable := contents]> (variables s))).

(** Modelled from the spec: [_default_grad_meta] of [grad.h]; the default
    provenance record has no operand. *)
Definition _default_grad_meta : grad_meta_t := LeafMeta.

(** Modelled from the spec: [_binary_set_grad_meta] of [grad.h] records in
    the new variable its two operands and the backward function of each. *)
Definition _binary_set_grad_meta (new_variable left_variable right_variable : loc)
    (left_fn right_fn : binary_backward_fn) : M E unit :=
  contents ← load_variable new_variable;
  store_variable new_variable
    (Variable_ (tensor contents) (gradient contents)
       (BinaryMeta left_variable right_variable left_fn right_fn)).

(** Modelled from the spec: [_unary_set_grad_meta] of [grad.h] records in
    the new variable its operand and the operand's backward function. *)
Definition _unary_set_grad_meta (new_variable variable : loc)
    (fn : unary_backward_fn) : M E unit :=
  contents ← load_variable new_variable;
  store_variable new_variable
    (Variable_ (tensor contents) (gradient contents) (UnaryMeta variable fn)).

(** *** Constructors *)

Definition _new_variable_from_tensor (tensor : tensor_t) : M E loc :=
  gradient ← _new_tensor_zeros_like tensor;
  malloc_variable (Variable_ tensor gradient _default_grad_meta).

(** The loop that reads the variadic dimensions, from the state it is in
    before a test of its condition: [dim_index] is the 8-bit counter,
    [dim_args] the arguments the caller passed that have not been read and
    [dims] the array.  The counter is compared with [num_dims] as an [int]
    and incremented modulo 256, and it is below [num_dims], the length of
    the array, whenever an entry is assigned; [va_arg] with no argument
    left has no defined result, and the loop stops there with
    [ArgumentsExhausted]. *)
Fixpoint parse_dims (num_dims : Z) (dim_index : N) (dim_args dims : list N)
  : error + list N :=
  if (Z.of_N dim_index <? num_dims)%Z
  then
    match dim_args with
    | [] => inl ArgumentsExhausted
    | dim :: dim_args' =>
        parse_dims num_dims ((dim_index + 1) mod 256) dim_args'
          (<[N.to_nat dim_index := dim]> dims)
    end
  else inr dims.

(** Modelled from the spec: [_new_shape] of [shape.h], which is not part of
    the sources at hand.  The construction fails with [InvalidShape] if the
    rank is zero or an extent is zero. *)
Definition _new_shape (num_dims : Z) (dims : list N) : M E shape_t :=
  if decide (num_dims = 0%Z ∨ 0 ∈ dims)
  then fail InvalidShape
  else mret (Shape num_dims dims).

Section NewVariable.

(** [new_variable] calls [_new_tensor] on a shape.  A function of that
    name and that argument is in neither source file ([tensor.c] defines
    [_new_tensor] on a number of rows and a number of columns), and the
    specification does not say which rows and columns a shape stands for:
    the function is a parameter. *)
Variable _new_tensor_from_shape : shape_t → M E tensor_t.

(** The variadic arguments the caller passed are the list [dim_args].  The
    array [dims] has [num_dims] entries, which is defined only for a
    positive [num_dims]; its entries are indeterminate until the loop
    assigns them, and are never read before. *)
Definition new_variable (num_dims : Z) (dim_args : list N) : M E loc :=
  if decide (num_dims ≤ 0)%Z
  then fail InvalidArrayLength
  else
    match parse_dims num_dims 0 dim_args (replicate (Z.to_nat num_dims) 0) with
    | inl e => fail e
    | inr dims =>
        shape ← _new_shape num_dims dims;
        new_tensor ← _new_tensor_from_shape shape;
        _new_variable_from_tensor new_tensor
    end.

End NewVariable.

Definition new_variable_like (old_variable : loc) : M E loc :=
  old ← load_variable old_variable;
  new_tensor ← _new_tensor_like (tensor old);
  _new_variable_from_tensor new_tensor.

Definition copy_variable (old_variable : loc) : M E loc :=
  old ← load_variable old_variable;
  new_tensor ← _copy_tensor (tensor old);
  _new_variable_from_tensor new_tensor.

Definition set_to_scalar (variable : loc) (value : E) : M E unit :=
  contents ← load_variable variable;
  _tensor_set_to_scalar_value (tensor contents) value.

(** *** Internal atomic functions *)

Definition _add_grad_backwards (arg other_arg child : loc) : M E tensor_t :=
  child_contents ← load_variable child;
  _copy_tensor (gradient child_contents).

Definition _add (left_variable right_variable : loc) (use_grad : bool) : M E loc :=
  left ← load_variable left_variable;
  right ← load_variable right_variable;
  new_tensor ← _tensor_add (tensor left) (tensor right);
  new_variable ← _new_variable_from_tensor new_tensor;
  (if use_grad
   then _binary_set_grad_meta new_variable left_variable right_variable
          ptr_add_grad_backwards ptr_add_grad_backwards
   else mret tt);;
  mret new_variable.

Definition _subtract_grad_backwards (arg other_arg child : loc) : M E tensor_t :=
  child_contents ← load_variable child;
  child_grad ← _copy_tensor (gradient child_contents);
  _tensor_multiply_by_scalar_value child_grad (scalar_of_int (-1));;
  mret child_grad.

Definition _subtract (left_variable right_variable : loc) (use_grad : bool) : M E loc :=
  left ← load_variable left_variable;
  right ← load_variable right_variable;
  new_tensor ← _tensor_subtract (tensor left) (tensor right);
  new_variable ← _new_variable_from_tensor new_tensor;
  (if use_grad
   then _binary_set_grad_meta new_variable left_variable right_variable
          ptr_subtract_grad_backwards ptr_subtract_grad_backwards
   else mret tt);;
  mret new_variable.

Definition _multiply_grad_backwards (arg other_arg child : loc) : M E tensor_t :=
  child_contents ← load_variable child;
  arg_grad ← _copy_tensor (gradient child_contents);
  other ← load_variable other_arg;
  _tensor_multiply_existing arg_grad (tensor other);;
  mret arg_grad.

Definition _multiply (left_variable right_variable : loc) (use_grad : bool) : M E loc :=
  left ← load_variable left_variable;
  right ← load_variable right_variable;
  new_tensor ← _tensor_multiply (tensor left) (tensor right);
  new_variable ← _new_variable_from_tensor new_tensor;
  (if use_grad
   then _binary_set_grad_meta new_variable left_variable right_variable
          ptr_multiply_grad_backwards ptr_multiply_grad_backwards
   else mret tt);;
  mret new_variable.

Definition _abs_grad_backwards (arg result : loc) : M E tensor_t :=
  arg_contents ← load_variable arg;
  arg_abs_grad ← _tensor_abs_grad (tensor arg_contents);
  result_contents ← load_variable result;
  _tensor_multiply arg_abs_grad (gradient result_contents).

Definition _abs (variable : loc) (use_grad : bool) : M E loc :=
  contents ← load_variable variable;
  new_tensor ← _tensor_abs (tensor contents);
  new_variable ← _new_variable_from_tensor new_tensor;
  (if use_grad
   then _unary_set_grad_meta new_variable variable ptr_abs_grad_backwards
   else mret tt);;
  mret new_variable.

Definition _sum_grad_backwards (arg result : loc) : M E tensor_t :=
  arg_contents ← load_variable arg;
  arg_sum_grad ← _tensor_sum_grad (tensor arg_contents);
  result_contents ← load_variable result;
  _tensor_multiply arg_sum_grad (tensor result_contents).

Definition _sum (variable : loc) (use_grad : bool) : M E loc :=
  contents ← load_variable variable;
  new_tensor ← _tensor_sum (tensor contents);
  new_variable ← _new_variable_from_tensor new_tensor;
  (if use_grad
   then _unary_set_grad_meta new_variable variable ptr_sum_grad_backwards
   else mret tt);;
  mret new_variable.

(** *** External functions *)

Definition add (left_variable right_variable : loc) : M E loc :=
  _add left_variable right_variable true.

Definition subtract (left_variable right_variable : loc) : M E loc :=
  _subtract left_variable right_variable true.

Definition multiply (left_variable right_variable : loc) : M E loc :=
  _multiply left_variable right_variable true.

Definition abs (variable : loc) : M E loc :=
  _abs variable true.

Definition sum (variable : loc) : M E loc :=
  _sum variable true.

(** *** Calling a recorded backward function *)

Definition call_binary_backward (fn : binary_backward_fn) : loc → loc → loc → M E tensor_t :=
  match fn with
  | ptr_add_grad_backwards => _add_grad_backwards
  | ptr_subtract_grad_backwards => _subtract_grad_backwards
  | ptr_multiply_grad_backwards => _multiply_grad_backwards
  end.

Definition call_unary_backward (fn : unary_backward_fn) : loc → loc → M E tensor_t :=
  match fn with
  | ptr_abs_grad_backwards => _abs_grad_backwards
  | ptr_sum_grad_backwards => _sum_grad_backwards
  end.

(** Modelled from the spec: the backward driver is not part of the sources
    at hand.  For one operand of a child it calls the backward function
    recorded for that operand on the operand, the other operand and the
    child, and obtains the operand's gradient contribution. *)
Definition operand_contribution (child : loc) (slot : operand_slot) : M E tensor_t :=
  child_contents ← load_variable child;
  match grad_meta child_contents, slot with
  | BinaryMeta left_arg right_arg left_fn _, LeftSlot =>
      call_binary_backward left_fn left_arg right_arg child
  | BinaryMeta left_arg right_arg _ right_fn, RightSlot =>
      call_binary_backward right_fn right_arg left_arg child
  | UnaryMeta arg arg_fn, LeftSlot =>
      call_unary_backward arg_fn arg child
  | _, _ => fail NoSuchOperand
  end.

End Variables.

(** ** Printing *)

Section Display.
Context {E : Type} `{Scalar E}.

(** The conversions ["%f"] and ["%llu"] of [printf]. *)
Variable format_f : E → string.
Variable format_llu : N → string.

Definition newline : string := String "010"%char EmptyString.

(** [printf]: the text written to the standard output is the value of the
    computation; texts written one after the other are appended. *)
Definition printf (text : string) : M E string := mret text.

(** [for (index = start; index < start + count; index++) body(index)] for a
    body that prints. *)
Fixpoint for_range_printing (start : N) (count : nat) (body : N → M E string)
  : M E string :=
  match count with
  | O => mret EmptyString
  | S count' =>
      first ← body start;
      rest ← for_range_printing (N.succ start) count' body;
      mret (first +:+ rest)
  end.

Definition _display_tensor (tensor : tensor_t) : M E string :=
  header ← printf ("Tensor:" +:+ newline);
  rows ← for_range_printing 0 (N.to_nat (num_rows tensor)) (λ row,
    entries ← for_range_printing 0 (N.to_nat (num_columns tensor)) (λ column,
      entry ← _tensor_get_entry_row_column tensor row column;
      printf (format_f entry +:+ " "));
    line_end ← printf newline;
    mret (entries +:+ line_end));
  rows_line ← printf ("num_rows: " +:+ format_llu (num_rows tensor) +:+ newline);
  columns_line ← printf ("num_columns: " +:+ format_llu (num_columns tensor) +:+ newline);
  mret (header +:+ rows +:+ rows_line +:+ columns_line).

Definition display_variable (variable : loc) : M E string :=
  contents ← load_variable variable;
  header ← printf ("Tensor:" +:+ newline);
  value ← _display_tensor (tensor contents);
  mret (header +:+ value).

Definition display_variable_with_gradient (variable : loc) : M E string :=
  contents ← load_variable variable;
  header ← printf ("Tensor:" +:+ newline);
  value ← _display_tensor (tensor contents);
  gradient_header ← printf ("Gradient:" +:+ newline);
  grad ← _display_tensor (gradient contents);
  mret (header +:+ value +:+ gradient_header +:+ grad).

End Display.

(** * Vocabulary of the statements *)

Definition returned_value {E A} (o : outcome E A) : option A :=
  match o with
  | Returned a _ => Some a
  | Failed _ _ => None
  end.

Section Statements.
Context {E : Type} `{Scalar E} {literal : DeadStorage}.

(** [holds s t buf]: [t] is a live tensor of the store [s], its buffer is
    [buf] and has one entry per position of the shape, and the byte size
    of the buffer is representable (as it is for every object in memory). *)
Definition holds (s : store E) (t : tensor_t) (buf : list E) : Prop :=
  buffers s !! data t = Some buf
  ∧ length buf = N.to_nat (_tensor_get_size t)
  ∧ _tensor_get_size t * scalar_sizeof < size_modulus.

Definition shape (t : tensor_t) : N * N := (num_rows t, num_columns t).

(** The gradient of [v] has the shape of the value of [v] and all its
    entries are zero. *)
Definition zero_gradient (s : store E) (v : variable_t) : Prop :=
  shape (gradient v) = shape (tensor v)
  ∧ buffers s !! data (gradient v)
    = Some (replicate (N.to_nat (_tensor_get_size (tensor v))) scalar_zero).

(** [p] is a variable of [s] whose gradient is zero and shaped like its
    value. *)
Definition created_zeroed (s : store E) (p : loc) : Prop :=
  ∃ v, variables s !! p = Some v ∧ zero_gradient s v.

(** The common shape of [_add], [_subtract] and [_multiply]. *)
Definition binary_atomic (scalar_fn : E → E → E) (fn : binary_backward_fn)
    (left_variable right_variable : loc) (use_grad : bool) : M E loc :=
  left ← load_variable left_variable;
  right ← load_variable right_variable;
  new_tensor ← _tensor_broadcast_scalar_fn (tensor left) (tensor right) scalar_fn;
  new_variable ← _new_variable_from_tensor new_tensor;
  (if use_grad
   then _binary_set_grad_meta new_variable left_variable right_variable fn fn
   else mret tt);;
  mret new_variable.

(** In the store [s], the backward function of sum called on the operand
    [arg] and the child [c] stops at the shape assertion whenever the
    operand has more than one entry, and it returns only for a 1x1
    operand. *)
Definition sum_backward_asserts (s : store E) (arg c : loc) (av : variable_t) : Prop :=
  (1 < num_rows (tensor av) * num_columns (tensor av) →
   ∃ s', _sum_grad_backwards arg c s = Failed ShapeMismatch s')
  ∧ (∀ t s', _sum_grad_backwards arg c s = Returned t s' →
       shape (tensor av) = (1, 1)).

(** The operand variables a provenance record points to. *)
Definition operands (meta : grad_meta_t) : list loc :=
  match meta with
  | LeafMeta => []
  | UnaryMeta arg _ => [arg]
  | BinaryMeta left_arg right_arg _ _ => [left_arg; right_arg]
  end.

(** A well-formed store: the value and the gradient of every variable are
    live tensors of the same shape, and every operand a variable records is
    a variable of the store. *)
Definition store_wf (s : store E) : Prop :=
  ∀ p v, variables s !! p = Some v →
    (∃ tb, holds s (tensor v) tb)
    ∧ (∃ gb, holds s (gradient v) gb)
    ∧ shape (gradient v) = shape (tensor v)
    ∧ ∀ q, q ∈ operands (grad_meta v) → is_Some (variables s !! q).

End Statements.

Section DisplayStatements.
Context {E : Type}.
Variable format_f : E → string.
Variable format_llu : N → string.

(** The entries of a row as they are printed: each followed by a space. *)
Definition render_entries (row : list E) : string :=
  foldr (λ entry rest, (format_f entry +:+ " ") +:+ rest) EmptyString row.

(** The first [rows] rows of [columns] entries of a buffer as they are
    printed: the entries of a row on one line, the rows in the order of the
    buffer. *)
Fixpoint render_rows (columns : nat) (buf : list E) (rows : nat) : string :=
  match rows with
  | O => EmptyString
  | S rows' =>
      (render_entries (take columns buf) +:+ newline)
      +:+ render_rows columns (drop columns buf) rows'
  end.

(** The text [_display_tensor] prints for a tensor with the entries
    [buf]. *)
Definition rendered (tensor : tensor_t) (buf : list E) : string :=
  ("Tensor:" +:+ newline)
  +:+ render_rows (N.to_nat (num_columns tensor)) buf (N.to_nat (num_rows tensor))
  +:+ ("num_rows: " +:+ format_llu (num_rows tensor) +:+ newline)
  +:+ ("num_columns: " +:+ format_llu (num_columns tensor) +:+ newline).

End DisplayStatements.

(** ** Concrete stores and runs over integer entries *)

(** Two readings of the dead literal of [_new_tensor].  With
    [struct_survives] the read finds the literal as it was written, as it
    does when the struct is kept in storage that outlives the call.  With
    [struct_clobbered] the storage has been used again since the return:
    the read finds other dimensions and an address that is not a buffer.
    The C standard allows both, and anything else. *)
Definition struct_survives : DeadStorage := {|
  after_return := λ written, written
|}.

(** An address that is no buffer of the stores below. *)
Definition stale_address : loc := 900%positive.

Definition struct_clobbered : DeadStorage := {|
  after_return := λ _, Tensor stale_address 0 0
|}.

Definition two_tensors : store Z :=
  Store {[ 1%positive := [1; 2; 3; 4]%Z; 2%positive := [10; 20; 30; 40]%Z ]} ∅.

Definition empty_store : store Z := Store ∅ ∅.

Section SurvivingLiteral.

(** The runs of this section show what the backward functions of subtract
    and sum compute once a created tensor can be used at all: they are
    made with the struct of every created tensor read back as it was
    written ([struct_survives]).  With the storage used again, the same
    runs stop at the first write through a created tensor, as the runs of
    the last part do. *)
#[local] Existing Instance struct_survives.

(** A leaf variable of the given dimensions with every entry set to
    [value]. *)
Definition leaf (rows columns : N) (value : Z) : M Z loc :=
  new_tensor ← _new_tensor rows columns;
  variable ← _new_variable_from_tensor new_tensor;
  set_to_scalar variable value;;
  mret variable.

(** Setting every entry of the gradient of a variable, as the caller of a
    backward pass does for its root. *)
Definition seed_gradient (variable : loc) (value : Z) : M Z unit :=
  contents ← load_variable variable;
  _tensor_set_to_scalar_value (gradient contents) value.

(** The entries of the contribution of one operand of [child], together
    with the entries of the gradient and of the value of [child]. *)
Definition observe_contribution (child : loc) (slot : operand_slot)
    : M Z (list Z * list Z * list Z) :=
  contribution ← operand_contribution child slot;
  contents ← load_variable child;
  contribution_entries ← read_buffer (data contribution);
  gradient_entries ← read_buffer (data (gradient contents));
  value_entries ← read_buffer (data (tensor contents));
  mret (contribution_entries, gradient_entries, value_entries).

(** [c = subtract(a, b)] for [a = [5 5]] and [b = [3 3]], the gradient of
    [c] set to ones, then the contribution of one operand. *)
Definition subtract_backward (slot : operand_slot) : M Z (list Z * list Z * list Z) :=
  a ← leaf 1 2 5%Z;
  b ← leaf 1 2 3%Z;
  c ← subtract a b;
  seed_gradient c 1%Z;;
  observe_contribution c slot.

(** [c = sum(a)] for the 1x1 operand [a = [5]], the gradient of [c] set to
    2, then the contribution of the operand. *)
Definition sum_backward : M Z (list Z * list Z * list Z) :=
  a ← leaf 1 1 5%Z;
  c ← sum a;
  seed_gradient c 2%Z;;
  observe_contribution c LeftSlot.

End SurvivingLiteral.

(** The other concrete runs are made on the source as it stands, with the
    storage of the literal used again after the return. *)
#[export] Existing Instance struct_clobbered.

(** Two leaf variables [a = 3 3 3 3] and [b = 4 4 4 4] of shape 2x2. *)
Definition variable_a : variable_t := Variable_ (Tensor 1 2 2) (Tensor 2 2 2) LeafMeta.
Definition variable_b : variable_t := Variable_ (Tensor 3 2 2) (Tensor 4 2 2) LeafMeta.

Definition two_variables : store Z :=
  Store {[ 1%positive := [3; 3; 3; 3]%Z; 2%positive := [0; 0; 0; 0]%Z;
           3%positive := [4; 4; 4; 4]%Z; 4%positive := [0; 0; 0; 0]%Z ]}
        {[ 1%positive := variable_a; 2%positive := variable_b ]}.

(** Two leaf variables whose value tensors are 2x3 and 3x2. *)
Definition mismatched_variables : store Z :=
  Store {[ 1%positive := [1; 2; 3; 4; 5; 6]%Z; 2%positive := [0; 0; 0; 0; 0; 0]%Z;
           3%positive := [1; 2; 3; 4; 5; 6]%Z; 4%positive := [0; 0; 0; 0; 0; 0]%Z ]}
        {[ 1%positive := Variable_ (Tensor 1 2 3) (Tensor 2 2 3) LeafMeta;
           2%positive := Variable_ (Tensor 3 3 2) (Tensor 4 3 2) LeafMeta ]}.

(** The 2x2 leaf [a = 3 3 3 3] and the child [c = sum(a)], whose value is
    the 1x1 tensor [12]. *)
Definition variable_sum : variable_t :=
  Variable_ (Tensor 3 1 1) (Tensor 4 1 1) (UnaryMeta 1 ptr_sum_grad_backwards).

Definition after_sum : store Z :=
  Store {[ 1%positive := [3; 3; 3; 3]%Z; 2%positive := [0; 0; 0; 0]%Z;
           3%positive := [12]%Z; 4%positive := [0]%Z ]}
        {[ 1%positive := variable_a; 2%positive := variable_sum ]}.

(** The leaves [a] and [b] and the child [c = add(a, b)], whose gradient
    has been set to ones. *)
Definition variable_total : variable_t :=
  Variable_ (Tensor 5 2 2) (Tensor 6 2 2)
    (BinaryMeta 1 2 ptr_add_grad_backwards ptr_add_grad_backwards).

Definition after_add : store Z :=
  Store {[ 1%positive := [3; 3; 3; 3]%Z; 2%positive := [0; 0; 0; 0]%Z;
           3%positive := [4; 4; 4; 4]%Z; 4%positive := [0; 0; 0; 0]%Z;
           5%positive := [7; 7; 7; 7]%Z; 6%positive := [1; 1; 1; 1]%Z ]}
        {[ 1%positive := variable_a; 2%positive := variable_b;
           3%positive := variable_total ]}.

(** The leaves [a] and [b] and the child [c = multiply(a, b)], whose
    gradient has been set to ones. *)
Definition variable_product : variable_t :=
  Variable_ (Tensor 5 2 2) (Tensor 6 2 2)
    (BinaryMeta 1 2 ptr_multiply_grad_backwards ptr_multiply_grad_backwards).

Definition after_multiply : store Z :=
  Store {[ 1%positive := [3; 3; 3; 3]%Z; 2%positive := [0; 0; 0; 0]%Z;
           3%positive := [4; 4; 4; 4]%Z; 4%positive := [0; 0; 0; 0]%Z;
           5%positive := [12; 12; 12; 12]%Z; 6%positive := [1; 1; 1; 1]%Z ]}
        {[ 1%positive := variable_a; 2%positive := variable_b;
           3%positive := variable_product ]}.

(** * Properties *)

(** ** Running computations *)

Section Running.
Context {E : Type}.

Lemma run_bind {A B} (m : M E A) (k : A → M E B) (s : store E) :
  (m ≫= k) s = match m s with
               | Returned a s' => k a s'
               | Failed e s' => Failed e s'
               end.
Proof. reflexivity. Qed.

Lemma run_ret {A} (a : A) (s : store E) : (mret a : M E A) s = Returned a s.
Proof. reflexivity. Qed.

Lemma bind_returned {A B} (m : M E A) (k : A → M E B) s a s' :
  m s = Returned a s' → (m ≫= k) s = k a s'.
Proof. intros Hm. by rewrite run_bind, Hm. Qed.

Lemma bind_failed {A B} (m : M E A) (k : A → M E B) s e s' :
  m s = Failed e s' → (m ≫= k) s = Failed e s'.
Proof. intros Hm. by rewrite run_bind, Hm. Qed.

Lemma store_eta (s : store E) : Store (buffers s) (variables s) = s.
Proof. by destruct s. Qed.

End Running.

(** ** Tensors in a store *)

Section TensorFacts.
Context {E : Type} `{Scalar E} {literal : DeadStorage}.

Lemma exact_compatible_shape l r :
  _tensor_exact_compatible l r = true ↔ shape l = shape r.
Proof.
  unfold _tensor_exact_compatible, shape.
  rewrite andb_true_iff, !N.eqb_eq. split; [intros [-> ->]|intros [= -> ->]]; done.
Qed.

Lemma fresh_buffer (s : store E) : buffers s !! fresh (dom (buffers s)) = None.
Proof. apply not_elem_of_dom, is_fresh. Qed.

Lemma fresh_variable (s : store E) : variables s !! fresh (dom (variables s)) = None.
Proof. apply not_elem_of_dom, is_fresh. Qed.

Lemma live_not_fresh (s : store E) (l : loc) buf :
  buffers s !! l = Some buf → fresh (dom (buffers s)) ≠ l.
Proof. intros Hl Heq. rewrite <- Heq, fresh_buffer in Hl. done. Qed.

Lemma calloc_run n (s : store E) :
  n * scalar_sizeof < size_modulus →
  calloc n s =
    Returned (fresh (dom (buffers s)))
      (Store (<[fresh (dom (buffers s)) := replicate (N.to_nat n) scalar_zero]>
                (buffers s))
             (variables s)).
Proof. intros Hfit. unfold calloc. by rewrite decide_True. Qed.

(** [_new_tensor] when the byte size of the buffer is representable: the
    buffer is allocated and cleared, and the caller is left with what it
    reads where the literal was. *)
Lemma new_tensor_run rows cols (s : store E) :
  wrap (rows * cols) * scalar_sizeof < size_modulus →
  _new_tensor rows cols s =
    Returned (after_return (Tensor (fresh (dom (buffers s))) rows cols))
      (Store (<[fresh (dom (buffers s)) :=
                  replicate (N.to_nat (wrap (rows * cols))) scalar_zero]> (buffers s))
             (variables s)).
Proof.
  intros Hfit. unfold _new_tensor.
  by erewrite bind_returned by by apply calloc_run.
Qed.

Lemma one_entry_fits : wrap (1 * 1) * scalar_sizeof < size_modulus.
Proof.
  replace (wrap (1 * 1)) with 1 by reflexivity.
  pose proof scalar_sizeof_bound. lia.
Qed.

Lemma read_buffer_run (s : store E) l buf :
  buffers s !! l = Some buf → read_buffer l s = Returned buf s.
Proof. unfold read_buffer. by intros ->. Qed.

Lemma write_buffer_run (s : store E) l buf :
  write_buffer l buf s = Returned tt (Store (<[l := buf]> (buffers s)) (variables s)).
Proof. reflexivity. Qed.

Lemma get_entry_run (s : store E) t buf index entry :
  buffers s !! data t = Some buf →
  buf !! N.to_nat index = Some entry →
  _tensor_get_entry t index s = Returned entry s.
Proof.
  intros Hbuf Hentry. unfold _tensor_get_entry.
  erewrite bind_returned by by apply read_buffer_run.
  by rewrite Hentry.
Qed.

Lemma set_entry_run (s : store E) t buf entry index :
  buffers s !! data t = Some buf →
  (N.to_nat index < length buf)%nat →
  _tensor_set_entry t entry index s =
    Returned tt (Store (<[data t := <[N.to_nat index := entry]> buf]> (buffers s))
                       (variables s)).
Proof.
  intros Hbuf Hlt. unfold _tensor_set_entry.
  erewrite bind_returned by by apply read_buffer_run.
  by rewrite decide_True.
Qed.

End TensorFacts.

(** ** Shape mismatch of the elementwise operations *)

Section TensorClaims.
Context {E : Type} `{Scalar E} {literal : DeadStorage}.

Lemma broadcast_shape_mismatch fn (s : store E) l r :
  shape l ≠ shape r →
  _tensor_broadcast_scalar_fn l r fn s = Failed ShapeMismatch s.
Proof.
  intros Hshape. unfold _tensor_broadcast_scalar_fn, _tensor_broadcast_compatible.
  destruct (_tensor_exact_compatible l r) eqn:Hcompat; [|done].
  by apply exact_compatible_shape in Hcompat.
Qed.

(** C7. When the shapes of the operands are not exactly equal, every
    binary elementwise operation fails with [ShapeMismatch], and the store
    at the failure is the store of the call: no tensor has been mutated. *)
Theorem elementwise_operations_shape_mismatch (s : store E) l r :
  shape l ≠ shape r →
  _tensor_add l r s = Failed ShapeMismatch s
  ∧ _tensor_subtract l r s = Failed ShapeMismatch s
  ∧ _tensor_multiply l r s = Failed ShapeMismatch s.
Proof.
  intros Hshape. split_and!; by apply broadcast_shape_mismatch.
Qed.

End TensorClaims.

Lemma elementwise_operations_shape_mismatch_witness :
  _tensor_add (Tensor 1 2 3) (Tensor 2 3 2) two_tensors = Failed ShapeMismatch two_tensors
  ∧ _tensor_subtract (Tensor 1 2 3) (Tensor 2 3 2) two_tensors = Failed ShapeMismatch two_tensors
  ∧ _tensor_multiply (Tensor 1 2 3) (Tensor 2 3 2) two_tensors = Failed ShapeMismatch two_tensors.
Proof.
  apply elementwise_operations_shape_mismatch. vm_compute. discriminate.
Defined.

(** ** Variables in a store *)

Section VariableFacts.
Context {E : Type} `{Scalar E} {literal : DeadStorage}.

Lemma load_variable_run (s : store E) p v :
  variables s !! p = Some v → load_variable p s = Returned v s.
Proof. unfold load_variable. by intros ->. Qed.

(** [_new_variable_from_tensor] when the byte size of the gradient buffer
    is representable: the gradient the record keeps is what is read where
    the literal of [_new_tensor] was. *)
Lemma new_variable_from_tensor_run t (s : store E) :
  _tensor_get_size t * scalar_sizeof < size_modulus →
  _new_variable_from_tensor t s =
    let d := fresh (dom (buffers s)) in
    let p := fresh (dom (variables s)) in
    let g := after_return (Tensor d (num_rows t) (num_columns t)) in
    Returned p
      (Store (<[d := replicate (N.to_nat (_tensor_get_size t)) scalar_zero]> (buffers s))
             (<[p := Variable_ t g _default_grad_meta]> (variables s))).
Proof.
  intros Hfit. unfold _new_variable_from_tensor, _new_tensor_zeros_like.
  by erewrite bind_returned by by apply new_tensor_run.
Qed.

Lemma set_to_scalar_run (s : store E) p v buf k :
  variables s !! p = Some v → buffers s !! data (tensor v) = Some buf →
  set_to_scalar p k s =
    Returned tt
      (Store (<[data (tensor v) := replicate (length buf) k]> (buffers s))
             (variables s)).
Proof.
  intros Hv Hbuf. unfold set_to_scalar, _tensor_set_to_scalar_value.
  erewrite bind_returned by by apply load_variable_run.
  erewrite bind_returned by by apply read_buffer_run.
  apply write_buffer_run.
Qed.

End VariableFacts.

(** ** Overwriting the value of a variable *)

Section Creation.
Context {E : Type} `{Scalar E} {literal : DeadStorage}.

(** C10. [set_to_scalar v k] overwrites every entry of the value tensor
    of [v] with [k]; the gradient buffer of [v], every other buffer, and
    every variable record (hence the provenance record of [v]) are left as
    they were. *)
Theorem set_to_scalar_frame (s : store E) p v buf k :
  variables s !! p = Some v →
  buffers s !! data (tensor v) = Some buf →
  data (gradient v) ≠ data (tensor v) →
  ∃ s',
    set_to_scalar p k s = Returned tt s'
    ∧ buffers s' !! data (tensor v) = Some (replicate (length buf) k)
    ∧ buffers s' !! data (gradient v) = buffers s !! data (gradient v)
    ∧ (∀ l, l ≠ data (tensor v) → buffers s' !! l = buffers s !! l)
    ∧ variables s' = variables s.
Proof.
  intros Hv Hbuf Hne. eexists. split.
  - unfold set_to_scalar, _tensor_set_to_scalar_value.
    erewrite bind_returned by by apply load_variable_run.
    erewrite bind_returned by by apply read_buffer_run.
    apply write_buffer_run.
  - cbn. split_and!.
    + by rewrite lookup_insert_eq.
    + by rewrite lookup_insert_ne.
    + intros l Hl. by rewrite lookup_insert_ne.
    + done.
Qed.

End Creation.

(** ** The backward function of sum *)

Section SumBackward.
Context {E : Type} `{Scalar E} {literal : DeadStorage}.

Lemma tensor_sum_grad_run (s : store E) t :
  _tensor_sum_grad t s =
    Returned (Tensor (fresh (dom (buffers s))) (num_rows t) (num_columns t))
      (Store (<[fresh (dom (buffers s)) :=
                  replicate (N.to_nat (_tensor_get_size t)) (scalar_of_int 1)]>
                (buffers s))
             (variables s)).
Proof. reflexivity. Qed.

Lemma scalar_shape_product t :
  1 < num_rows t * num_columns t → shape t ≠ (1, 1).
Proof. unfold shape. intros Hlt [= Hr Hc]. rewrite Hr, Hc in Hlt. lia. Qed.

Lemma sum_backward_mismatch (s : store E) arg result av rv :
  variables s !! arg = Some av → variables s !! result = Some rv →
  shape (tensor av) ≠ shape (tensor rv) →
  ∃ s', _sum_grad_backwards arg result s = Failed ShapeMismatch s'.
Proof.
  intros Ha Hr Hshape. unfold _sum_grad_backwards.
  erewrite bind_returned by by apply load_variable_run.
  erewrite bind_returned by apply tensor_sum_grad_run.
  erewrite bind_returned by by apply load_variable_run.
  eexists. unfold _tensor_multiply. by apply broadcast_shape_mismatch.
Qed.

(** [sum] on a live operand. *)
Lemma sum_run (s : store E) a av buf use_grad :
  variables s !! a = Some av → buffers s !! data (tensor av) = Some buf →
  _sum a use_grad s =
    let dt := fresh (dom (buffers s)) in
    let bufs := <[dt := [foldl scalar_plus scalar_zero buf]]> (buffers s) in
    let dg := fresh (dom bufs) in
    let c := fresh (dom (variables s)) in
    Returned c
      (Store (<[dg := replicate (N.to_nat (_tensor_get_size (Tensor dt 1 1))) scalar_zero]> bufs)
             (<[c := Variable_ (Tensor dt 1 1) (after_return (Tensor dg 1 1))
                       (if use_grad then UnaryMeta a ptr_sum_grad_backwards
                        else LeafMeta)]>
                (variables s))).
Proof.
  intros Ha Hbuf.
  unfold _sum.
  erewrite bind_returned by by apply load_variable_run.
  erewrite bind_returned; last first.
  { unfold _tensor_sum.
    erewrite bind_returned by by apply read_buffer_run.
    reflexivity. }
  rewrite run_bind, new_variable_from_tensor_run by apply one_entry_fits.
  cbn zeta. cbn [buffers variables num_rows num_columns].
  destruct use_grad.
  - unfold _unary_set_grad_meta.
    erewrite bind_returned; last first.
    { erewrite bind_returned;
        [|apply load_variable_run; cbn; by rewrite lookup_insert_eq].
      reflexivity. }
    rewrite run_ret. cbn. by rewrite insert_insert_eq.
  - reflexivity.
Qed.

(** C3. Let [c] be the child that [sum] returns for the operand [arg].
    In any store that still has the two records, the backward function of
    sum fails the exact-shape assertion of the elementwise multiply when
    the operand has more than one entry, because the child's value tensor
    is 1x1; it returns normally only when the operand itself is 1x1. *)
Theorem sum_backward_shape_assertion (s0 : store E) arg av buf :
  variables s0 !! arg = Some av →
  buffers s0 !! data (tensor av) = Some buf →
  ∃ c s1 cv,
    sum arg s0 = Returned c s1
    ∧ variables s1 !! c = Some cv
    ∧ variables s1 !! arg = Some av
    ∧ grad_meta cv = UnaryMeta arg ptr_sum_grad_backwards
    ∧ shape (tensor cv) = (1, 1)
    ∧ ∀ s : store E,
        variables s !! c = Some cv → variables s !! arg = Some av →
        sum_backward_asserts s arg c av.
Proof.
  intros Ha Hbuf.
  assert (fresh (dom (variables s0)) ≠ arg) as Hne.
  { intros Heq. rewrite <- Heq, fresh_variable in Ha. done. }
  eexists _, _, _. split; [by eapply sum_run|]. cbn.
  rewrite lookup_insert_eq, lookup_insert_ne by done.
  split_and!; [done..|].
  intros s Hc Ha'. split.
  - intros Hlt. eapply sum_backward_mismatch; [done..|].
    by apply scalar_shape_product.
  - intros t s' Hrun.
    destruct (decide (shape (tensor av) = (1, 1))) as [|Hshape]; [done|].
    destruct (sum_backward_mismatch s arg _ av _ Ha' Hc) as [s'' Hfail]; [done|].
    congruence.
Qed.

End SumBackward.

(** ** The backward functions of subtract and sum on integer entries *)

(** C1 fails on the code: for the left operand of [subtract] the recorded
    backward function returns the negated gradient of the child, [-1 -1],
    where the gradient of the child is [1 1]; the right operand gets the
    same negated tensor.  The run is one in which every created tensor is
    read back as it was written. *)
Theorem subtract_left_contribution_negated :
  returned_value (subtract_backward LeftSlot empty_store)
    = Some ([-1; -1]%Z, [1; 1]%Z, [2; 2]%Z)
  ∧ returned_value (subtract_backward RightSlot empty_store)
    = Some ([-1; -1]%Z, [1; 1]%Z, [2; 2]%Z).
Proof. split; vm_compute; reflexivity. Qed.

(** C2 fails on the code: with the child's gradient equal to [2] and the
    child's value equal to [5], the backward function of sum returns [5],
    the all-ones tensor multiplied by the value of the child, and not
    [2].  The run is one in which every created tensor is read back as it
    was written. *)
Theorem sum_contribution_uses_child_value :
  returned_value (sum_backward empty_store) = Some ([5]%Z, [2]%Z, [5]%Z).
Proof. vm_compute. reflexivity. Qed.

Lemma sum_backward_shape_assertion_witness :
  ∃ c s1 cv,
    sum 1%positive two_variables = Returned c s1
    ∧ variables s1 !! c = Some cv
    ∧ variables s1 !! 1%positive = Some variable_a
    ∧ grad_meta cv = UnaryMeta 1%positive ptr_sum_grad_backwards
    ∧ shape (tensor cv) = (1, 1)
    ∧ ∀ s : store Z,
        variables s !! c = Some cv → variables s !! 1%positive = Some variable_a →
        sum_backward_asserts s 1%positive c variable_a.
Proof.
  apply (sum_backward_shape_assertion two_variables 1%positive variable_a [3; 3; 3; 3]%Z);
    vm_compute; reflexivity.
Defined.

Lemma set_to_scalar_frame_witness :
  ∃ s',
    set_to_scalar 1%positive 7%Z two_variables = Returned tt s'
    ∧ buffers s' !! 1%positive = Some (replicate 4 7%Z)
    ∧ buffers s' !! 2%positive = buffers two_variables !! 2%positive
    ∧ (∀ l, l ≠ 1%positive → buffers s' !! l = buffers two_variables !! l)
    ∧ variables s' = variables two_variables.
Proof.
  apply (set_to_scalar_frame two_variables 1%positive variable_a [3; 3; 3; 3]%Z 7%Z).
  - vm_compute; reflexivity.
  - vm_compute; reflexivity.
  - discriminate.
Defined.

(** * Further properties of the tensor layer *)

Section TensorLayer.
Context {E : Type} `{Scalar E}.

(** X1. Exact compatibility compares the two dimensions and nothing else: it
    is reflexive, symmetric and transitive, it holds exactly when both
    dimensions agree (so a 2x3 and a 3x2 tensor are not compatible), and
    [_tensor_broadcast_compatible] accepts nothing more. *)
Theorem exact_compatible_equivalence :
  (∀ t, _tensor_exact_compatible t t = true)
  ∧ (∀ l r, _tensor_exact_compatible l r = _tensor_exact_compatible r l)
  ∧ (∀ a b c, _tensor_exact_compatible a b = true →
              _tensor_exact_compatible b c = true →
              _tensor_exact_compatible a c = true)
  ∧ (∀ l r, _tensor_exact_compatible l r = true
            ↔ num_rows l = num_rows r ∧ num_columns l = num_columns r)
  ∧ (∀ l r, _tensor_broadcast_compatible l r = true
            ↔ num_rows l = num_rows r ∧ num_columns l = num_columns r).
Proof.
  assert (∀ l r, _tensor_exact_compatible l r = true
                 ↔ num_rows l = num_rows r ∧ num_columns l = num_columns r) as Hiff.
  { intros l r. unfold _tensor_exact_compatible.
    rewrite andb_true_iff, !N.eqb_eq. tauto. }
  split_and!; [| | |done|done].
  - intros t. by apply Hiff.
  - intros l r. unfold _tensor_exact_compatible.
    by rewrite (N.eqb_sym (num_columns l)), (N.eqb_sym (num_rows l)).
  - intros a b c [Hr1 Hc1]%Hiff [Hr2 Hc2]%Hiff. apply Hiff. split; congruence.
Qed.

End TensorLayer.

(** ** Populating a tensor *)

Section Populate.
Context {E : Type} `{Scalar E}.

Lemma populate_row t (fn : N → N → E) row count :
  ∀ column (s : store E) nb,
    buffers s !! data t = Some nb →
    row * num_columns t + column + N.of_nat count ≤ size_modulus →
    (N.to_nat (row * num_columns t) + N.to_nat column + count ≤ length nb)%nat →
    ∃ nb',
      for_range column count
        (λ column, let new_entry := fn row column in
                   _tensor_set_entry_row_column t row column new_entry) s
        = Returned tt (Store (<[data t := nb']> (buffers s)) (variables s))
      ∧ length nb' = length nb
      ∧ ∀ i, nb' !! i =
          if decide (N.to_nat (row * num_columns t) + N.to_nat column ≤ i
                     < N.to_nat (row * num_columns t) + N.to_nat column + count)%nat
          then Some (fn row (N.of_nat (i - N.to_nat (row * num_columns t))))
          else nb !! i.
Proof.
  induction count as [|count IH]; intros column s nb Hnb Hwrap Hlen.
  - exists nb. split_and!; [|done|].
    + cbn. rewrite run_ret, insert_id by done. by rewrite store_eta.
    + intros i. rewrite decide_False by lia. done.
  - set (base := N.to_nat (row * num_columns t)) in *.
    set (nb1 := <[(base + N.to_nat column)%nat := fn row column]> nb).
    set (s1 := Store (<[data t := nb1]> (buffers s)) (variables s)).
    assert (_tensor_set_entry_row_column t row column (fn row column) s
            = Returned tt s1) as Hbody.
    { unfold _tensor_set_entry_row_column, wrap.
      rewrite N.mod_small by (unfold size_modulus in *; lia).
      erewrite set_entry_run; [|done|subst base; lia].
      subst s1 nb1 base. do 4 f_equal. lia. }
    destruct (IH (N.succ column) s1 nb1) as (nb' & Hrun & Hlen' & Hspec).
    + subst s1; cbn. by rewrite lookup_insert_eq.
    + lia.
    + subst nb1. rewrite length_insert. lia.
    + exists nb'. split_and!.
      * change (for_range column (S count) ?body) with
          (body column ;; for_range (N.succ column) count body).
        erewrite bind_returned by exact Hbody.
        rewrite Hrun. subst s1; cbn. by rewrite insert_insert_eq.
      * rewrite Hlen'. subst nb1. apply length_insert.
      * intros i. rewrite Hspec. rewrite N2Nat.inj_succ.
        destruct (decide (i = base + N.to_nat column)%nat) as [->|Hi].
        -- rewrite decide_False by lia. rewrite decide_True by lia.
           subst nb1. rewrite list_lookup_insert_eq by lia.
           do 2 f_equal. lia.
        -- subst nb1. rewrite list_lookup_insert_ne by done.
           repeat case_decide; try done; lia.
Qed.

Lemma populate_rows t (fn : N → N → E) count :
  ∀ row (s : store E) nb,
    buffers s !! data t = Some nb →
    (row + N.of_nat count) * num_columns t ≤ size_modulus →
    ((N.to_nat row + count) * N.to_nat (num_columns t) ≤ length nb)%nat →
    ∃ nb',
      for_range row count (λ row,
        for_range 0 (N.to_nat (num_columns t)) (λ column,
          let new_entry := fn row column in
          _tensor_set_entry_row_column t row column new_entry)) s
        = Returned tt (Store (<[data t := nb']> (buffers s)) (variables s))
      ∧ length nb' = length nb
      ∧ ∀ i, nb' !! i =
          if decide (N.to_nat row * N.to_nat (num_columns t) ≤ i
                     < (N.to_nat row + count) * N.to_nat (num_columns t))%nat
          then Some (fn (N.of_nat (i `div` N.to_nat (num_columns t)))
                        (N.of_nat (i `mod` N.to_nat (num_columns t))))
          else nb !! i.
Proof.
  set (C := N.to_nat (num_columns t)).
  induction count as [|count IH]; intros row s nb Hnb Hwrap Hlen.
  - exists nb. split_and!; [|done|].
    + cbn. rewrite run_ret, insert_id by done. by rewrite store_eta.
    + intros i. rewrite decide_False by lia. done.
  - destruct (populate_row t fn row C 0 s nb) as (nb1 & Hrow & Hlen1 & Hspec1).
    + done.
    + subst C. lia.
    + subst C. rewrite N2Nat.inj_mul. lia.
    + set (s1 := Store (<[data t := nb1]> (buffers s)) (variables s)) in *.
      destruct (IH (N.succ row) s1 nb1) as (nb' & Hrun & Hlen' & Hspec).
      * subst s1; cbn. by rewrite lookup_insert_eq.
      * lia.
      * rewrite Hlen1. lia.
      * exists nb'. split_and!.
        -- change (for_range row (S count) ?body) with
             (body row ;; for_range (N.succ row) count body).
           erewrite bind_returned by exact Hrow.
           rewrite Hrun. subst s1; cbn. by rewrite insert_insert_eq.
        -- lia.
        -- intros i. rewrite Hspec, Hspec1. rewrite N2Nat.inj_succ, N2Nat.inj_mul.
           fold C. change (N.to_nat 0) with 0%nat.
           destruct (decide (N.to_nat row * C ≤ i < S (N.to_nat row) * C)%nat)
             as [Hin|Hout].
           ++ rewrite decide_False by lia. rewrite decide_True by lia.
              rewrite decide_True by lia.
              assert (C ≠ 0)%nat as HC by lia.
              assert (i `div` C = N.to_nat row)%nat as Hdiv.
              { symmetry. apply (Nat.div_unique i C _ (i - N.to_nat row * C)); lia. }
              assert (i `mod` C = i - N.to_nat row * C)%nat as Hmod.
              { symmetry. apply (Nat.mod_unique i C (N.to_nat row)); lia. }
              by rewrite Hdiv, Hmod, N2Nat.id.
           ++ rewrite (decide_False (P := (_ + 0 ≤ i < _)%nat)) by lia.
              repeat case_decide; try done; lia.
Qed.

End Populate.

Section PopulateEntries.
Context {E : Type} `{Scalar E}.

(** X5. [_populate_tensor] on a live tensor whose number of entries does not
    wrap sets the entry of every (row, column) to the value of the function
    at (row, column): reading it back with [_tensor_get_entry_row_column]
    returns that value.  The tensor keeps its buffer and its size, and no
    other buffer and no variable changes. *)
Theorem populate_tensor_entries (s : store E) t buf (fn : N → N → E) :
  holds s t buf → num_rows t * num_columns t < size_modulus →
  ∃ s' buf',
    _populate_tensor t fn s = Returned tt s'
    ∧ holds s' t buf'
    ∧ (∀ row column, row < num_rows t → column < num_columns t →
         buf' !! N.to_nat (row * num_columns t + column) = Some (fn row column)
         ∧ _tensor_get_entry_row_column t row column s' = Returned (fn row column) s')
    ∧ (∀ l, l ≠ data t → buffers s' !! l = buffers s !! l)
    ∧ variables s' = variables s.
Proof.
  intros (Hbuf & Hlen & Hfit) Hsmall.
  assert (length buf = (N.to_nat (num_rows t) * N.to_nat (num_columns t))%nat) as Hlen'.
  { rewrite Hlen. unfold _tensor_get_size, wrap.
    rewrite N.mod_small by done. apply N2Nat.inj_mul. }
  destruct (populate_rows t fn (N.to_nat (num_rows t)) 0 s buf)
    as (buf' & Hrun & Hlen'' & Hspec).
  - done.
  - rewrite N2Nat.id. unfold size_modulus in *. lia.
  - change (N.to_nat 0) with 0%nat. lia.
  - exists (Store (<[data t := buf']> (buffers s)) (variables s)), buf'.
    split; [exact Hrun|].
    assert (∀ row column, row < num_rows t → column < num_columns t →
            buf' !! N.to_nat (row * num_columns t + column) = Some (fn row column))
      as Hentries.
    { intros row column Hrow Hcolumn. rewrite Hspec.
      change (N.to_nat 0) with 0%nat.
      set (C := N.to_nat (num_columns t)).
      assert (N.to_nat (row * num_columns t + column)
              = (N.to_nat row * C + N.to_nat column)%nat) as -> by (subst C; lia).
      assert (N.to_nat column < C)%nat by (subst C; lia).
      assert (N.to_nat row < N.to_nat (num_rows t))%nat by lia.
      rewrite decide_True by nia.
      assert ((N.to_nat row * C + N.to_nat column) `div` C = N.to_nat row)%nat as ->.
      { symmetry. apply (Nat.div_unique _ C _ (N.to_nat column)); lia. }
      assert ((N.to_nat row * C + N.to_nat column) `mod` C = N.to_nat column)%nat as ->.
      { symmetry. apply (Nat.mod_unique _ C (N.to_nat row)); lia. }
      by rewrite !N2Nat.id. }
    split_and!.
    + split_and!; cbn; [by rewrite lookup_insert_eq|congruence|done].
    + intros row column Hrow Hcolumn. split; [by apply Hentries|].
      unfold _tensor_get_entry_row_column, wrap.
      rewrite N.mod_small by (unfold size_modulus in *; nia).
      eapply get_entry_run; cbn; [by rewrite lookup_insert_eq|by apply Hentries].
    + cbn. intros l Hl. by rewrite lookup_insert_ne.
    + done.
Qed.

End PopulateEntries.

Lemma populate_tensor_entries_witness :
  ∃ s' buf',
    _populate_tensor (Tensor 1 2 2) (λ row column, Z.of_N (10 * row + column)) two_tensors
      = Returned tt s'
    ∧ holds s' (Tensor 1 2 2) buf'
    ∧ (∀ row column, row < 2 → column < 2 →
         buf' !! N.to_nat (row * 2 + column) = Some (Z.of_N (10 * row + column))
         ∧ _tensor_get_entry_row_column (Tensor 1 2 2) row column s'
           = Returned (Z.of_N (10 * row + column)) s')
    ∧ (∀ l, l ≠ 1%positive → buffers s' !! l = buffers two_tensors !! l)
    ∧ variables s' = variables two_tensors.
Proof.
  apply (populate_tensor_entries two_tensors (Tensor 1 2 2) [1; 2; 3; 4]%Z).
  - split_and!; vm_compute; reflexivity.
  - reflexivity.
Defined.

(** * Further properties of the variable layer *)

(** ** Shape mismatch of the binary operations *)

Section Forward.
Context {E : Type} `{Scalar E} {literal : DeadStorage}.

Lemma binary_atomic_mismatch scalar_fn ptr (s : store E) l r lv rv use_grad :
  variables s !! l = Some lv → variables s !! r = Some rv →
  shape (tensor lv) ≠ shape (tensor rv) →
  binary_atomic scalar_fn ptr l r use_grad s = Failed ShapeMismatch s.
Proof.
  intros Hl Hr Hshape. unfold binary_atomic.
  erewrite bind_returned by by apply load_variable_run.
  erewrite bind_returned by by apply load_variable_run.
  erewrite bind_failed; [done|]. by apply broadcast_shape_mismatch.
Qed.

(** X7. On two variables whose value tensors differ in shape, the three binary
    operations fail with [ShapeMismatch], with or without gradient
    tracking, and the store at the failure is the store of the call: no
    variable was created and no buffer allocated. *)
Theorem binary_operations_shape_mismatch (s : store E) l r lv rv use_grad :
  variables s !! l = Some lv → variables s !! r = Some rv →
  shape (tensor lv) ≠ shape (tensor rv) →
  _add l r use_grad s = Failed ShapeMismatch s
  ∧ _subtract l r use_grad s = Failed ShapeMismatch s
  ∧ _multiply l r use_grad s = Failed ShapeMismatch s.
Proof.
  intros Hl Hr Hshape. split_and!.
  - exact (binary_atomic_mismatch _scalar_add _ s l r lv rv use_grad Hl Hr Hshape).
  - exact (binary_atomic_mismatch _scalar_subtract _ s l r lv rv use_grad Hl Hr Hshape).
  - exact (binary_atomic_mismatch _scalar_multiply _ s l r lv rv use_grad Hl Hr Hshape).
Qed.

End Forward.

Lemma binary_operations_shape_mismatch_witness :
  _add 1%positive 2%positive true mismatched_variables
    = Failed ShapeMismatch mismatched_variables
  ∧ _subtract 1%positive 2%positive true mismatched_variables
    = Failed ShapeMismatch mismatched_variables
  ∧ _multiply 1%positive 2%positive true mismatched_variables
    = Failed ShapeMismatch mismatched_variables.
Proof.
  apply (binary_operations_shape_mismatch mismatched_variables 1%positive 2%positive
           (Variable_ (Tensor 1 2 3) (Tensor 2 2 3) LeafMeta)
           (Variable_ (Tensor 3 3 2) (Tensor 4 3 2) LeafMeta)).
  - vm_compute; reflexivity.
  - vm_compute; reflexivity.
  - vm_compute. discriminate.
Defined.

(** ** Constructors *)

Section Constructors.
Context {E : Type} `{Scalar E} {literal : DeadStorage}.

(** With a [num_dims] of 256 or more the 8-bit counter is below [num_dims]
    at every test: the loop ends only by reading past the last argument. *)
Lemma parse_dims_wraps num_dims dim_args :
  (256 ≤ num_dims)%Z →
  ∀ dim_index dims, dim_index < 256 →
    parse_dims num_dims dim_index dim_args dims = inl ArgumentsExhausted.
Proof.
  intros Hmany. induction dim_args as [|dim dim_args IH]; intros dim_index dims Hindex;
    cbn [parse_dims]; rewrite (proj2 (Z.ltb_lt _ _)) by lia; [done|].
  apply IH. by apply N.mod_lt.
Qed.

Lemma parse_dims_short num_dims dim_args :
  (num_dims < 256)%Z →
  ∀ dim_index dims,
    (Z.of_N dim_index ≤ num_dims)%Z →
    (length dim_args < Z.to_nat num_dims - N.to_nat dim_index)%nat →
    parse_dims num_dims dim_index dim_args dims = inl ArgumentsExhausted.
Proof.
  intros Hfew. induction dim_args as [|dim dim_args IH]; intros dim_index dims Hindex Hshort;
    cbn [parse_dims]; cbn [length] in Hshort;
    rewrite (proj2 (Z.ltb_lt _ _)) by lia; [done|].
  rewrite N.mod_small by lia. apply IH; lia.
Qed.

Lemma parse_dims_reads num_dims dim_args :
  (num_dims < 256)%Z →
  ∀ dim_index dims,
    (Z.of_N dim_index ≤ num_dims)%Z →
    length dims = Z.to_nat num_dims →
    (Z.to_nat num_dims - N.to_nat dim_index ≤ length dim_args)%nat →
    parse_dims num_dims dim_index dim_args dims
    = inr (take (N.to_nat dim_index) dims
           ++ take (Z.to_nat num_dims - N.to_nat dim_index) dim_args).
Proof.
  intros Hfew. induction dim_args as [|dim dim_args IH]; intros dim_index dims Hindex Hlen Hargs;
    cbn [parse_dims]; cbn [length] in Hargs.
  - rewrite (proj2 (Z.ltb_ge _ _)) by lia.
    rewrite take_ge by lia. by rewrite take_nil, app_nil_r.
  - destruct (Z.ltb_spec (Z.of_N dim_index) num_dims) as [Hlt|Hge].
    + rewrite N.mod_small by lia.
      rewrite IH; [|lia|by rewrite length_insert|lia].
      replace (N.to_nat (dim_index + 1)) with (S (N.to_nat dim_index)) by lia.
      replace (Z.to_nat num_dims - N.to_nat dim_index)%nat
        with (S (Z.to_nat num_dims - S (N.to_nat dim_index))) by lia.
      rewrite (take_S_r _ _ dim) by (apply list_lookup_insert_eq; lia).
      rewrite take_insert_ge by lia.
      cbn [take]. by rewrite <- app_assoc.
    + replace (Z.to_nat num_dims - N.to_nat dim_index)%nat with 0%nat by lia.
      rewrite take_ge by lia. by rewrite app_nil_r.
Qed.

(** X8. [new_variable] counts the dimensions it reads in 8 bits.  With a
    [num_dims] of 256 or more the counter never reaches [num_dims]: the
    loop goes on reading past the last argument, however many arguments
    the caller passed, and the call does not return.  With a [num_dims]
    below 1 the array of the dimensions has no valid length.  With a
    [num_dims] from 1 to 255 and fewer arguments than that, the loop reads
    past the last one; with at least that many, it leaves the first
    [num_dims] arguments in the array and the call goes on with the shape
    built from them. *)
Theorem new_variable_reads_dimensions (new_tensor_from_shape : shape_t → M E tensor_t)
    (s : store E) num_dims dim_args :
  ((256 ≤ num_dims)%Z →
   new_variable new_tensor_from_shape num_dims dim_args s = Failed ArgumentsExhausted s)
  ∧ ((num_dims ≤ 0)%Z →
     new_variable new_tensor_from_shape num_dims dim_args s = Failed InvalidArrayLength s)
  ∧ ((0 < num_dims < 256)%Z → (length dim_args < Z.to_nat num_dims)%nat →
     new_variable new_tensor_from_shape num_dims dim_args s = Failed ArgumentsExhausted s)
  ∧ ((0 < num_dims < 256)%Z → (Z.to_nat num_dims ≤ length dim_args)%nat →
     new_variable new_tensor_from_shape num_dims dim_args s
     = (shape ← _new_shape num_dims (take (Z.to_nat num_dims) dim_args);
        new_tensor ← new_tensor_from_shape shape;
        _new_variable_from_tensor new_tensor) s).
Proof.
  unfold new_variable. split_and!.
  - intros Hmany. rewrite decide_False by lia.
    by rewrite parse_dims_wraps.
  - intros Hnone. by rewrite decide_True.
  - intros Hdims Hshort. rewrite decide_False by lia.
    rewrite parse_dims_short; [done|lia|lia|]. cbn. lia.
  - intros Hdims Hargs. rewrite decide_False by lia.
    rewrite parse_dims_reads; [|lia|lia|by rewrite length_replicate|cbn; lia].
    cbn [N.to_nat take app]. by rewrite Nat.sub_0_r.
Qed.

(** X11. [_new_variable_from_tensor] does not copy the tensor it is given: the
    value tensor of the new variable is that very tensor, so that
    overwriting the variable overwrites the tensor. *)
Theorem new_variable_from_tensor_shares (s : store E) t buf :
  holds s t buf →
  ∃ p s' v,
    _new_variable_from_tensor t s = Returned p s'
    ∧ variables s' !! p = Some v
    ∧ tensor v = t
    ∧ holds s' t buf
    ∧ ∀ k, ∃ s'',
        set_to_scalar p k s' = Returned tt s''
        ∧ holds s'' t (replicate (length buf) k).
Proof.
  intros (Hbuf & Hlen & Hfit).
  pose proof (live_not_fresh _ _ _ Hbuf) as Hne.
  eexists _, _, _. split; [by apply new_variable_from_tensor_run|]. cbn zeta.
  split_and!.
  - cbn. by rewrite lookup_insert_eq.
  - done.
  - split_and!; cbn; [by rewrite lookup_insert_ne|done..].
  - intros k. eexists. split.
    + eapply set_to_scalar_run; cbn; [by rewrite lookup_insert_eq|].
      by rewrite lookup_insert_ne.
    + split_and!; cbn; [by rewrite lookup_insert_eq| |done].
      by rewrite length_replicate.
Qed.

End Constructors.

Lemma new_variable_reads_dimensions_witness :
  new_variable (λ _, fail InvalidShape) 256 (replicate 256 2) empty_store
  = Failed ArgumentsExhausted empty_store.
Proof.
  refine (proj1 (new_variable_reads_dimensions (λ _, fail InvalidShape) empty_store
                   256 (replicate 256 2)) _).
  lia.
Defined.

Lemma new_variable_from_tensor_shares_witness :
  ∃ p s' v,
    _new_variable_from_tensor (Tensor 1 2 2) two_tensors = Returned p s'
    ∧ variables s' !! p = Some v
    ∧ tensor v = Tensor 1 2 2
    ∧ holds s' (Tensor 1 2 2) [1; 2; 3; 4]%Z
    ∧ ∀ k, ∃ s'',
        set_to_scalar p k s' = Returned tt s''
        ∧ holds s'' (Tensor 1 2 2) (replicate 4 k).
Proof.
  refine (new_variable_from_tensor_shares two_tensors (Tensor 1 2 2) [1; 2; 3; 4]%Z _).
  split_and!; vm_compute; reflexivity.
Defined.

(** ** The store at a failure of the backward function of sum *)

Section SumFailure.
Context {E : Type} `{Scalar E} {literal : DeadStorage}.

(** X13. When the backward function of sum stops at the shape assertion, the
    all-ones tensor it built for the operand is already allocated: the
    store at the failure is the store of the call with that one buffer
    added, and no existing buffer or variable has changed. *)
Theorem sum_backward_failure_store (s : store E) arg result av rv :
  variables s !! arg = Some av → variables s !! result = Some rv →
  shape (tensor av) ≠ shape (tensor rv) →
  buffers s !! fresh (dom (buffers s)) = None
  ∧ _sum_grad_backwards arg result s =
      Failed ShapeMismatch
        (Store (<[fresh (dom (buffers s)) :=
                    replicate (N.to_nat (_tensor_get_size (tensor av))) (scalar_of_int 1)]>
                  (buffers s))
               (variables s)).
Proof.
  intros Ha Hr Hshape. split; [apply fresh_buffer|].
  unfold _sum_grad_backwards.
  erewrite bind_returned by by apply load_variable_run.
  erewrite bind_returned by apply tensor_sum_grad_run.
  erewrite bind_returned by by apply load_variable_run.
  unfold _tensor_multiply. by apply broadcast_shape_mismatch.
Qed.

End SumFailure.

Lemma sum_backward_failure_store_witness :
  buffers after_sum !! 5%positive = None
  ∧ _sum_grad_backwards 1%positive 2%positive after_sum =
      Failed ShapeMismatch
        (Store (<[5%positive := replicate 4 1%Z]> (buffers after_sum))
               (variables after_sum)).
Proof.
  refine (sum_backward_failure_store after_sum 1%positive 2%positive
           variable_a variable_sum
          _ _ _).
  - vm_compute; reflexivity.
  - vm_compute; reflexivity.
  - vm_compute. discriminate.
Defined.

(** ** Well-formed stores *)

Section WellFormed.
Context {E : Type} `{Scalar E} {literal : DeadStorage}.

Lemma holds_overwrite (s : store E) t tb d buf new :
  holds s t tb → buffers s !! d = Some buf → length new = length buf →
  ∃ tb', holds (Store (<[d := new]> (buffers s)) (variables s)) t tb'.
Proof.
  intros (Hbuf & Hlen & Hfit) Hd Hnew.
  destruct (decide (data t = d)) as [<-|Hne].
  - exists new. split_and!; cbn; [by rewrite lookup_insert_eq| |done].
    rewrite Hbuf in Hd. injection Hd as <-. congruence.
  - exists tb. split_and!; cbn; [by rewrite lookup_insert_ne|done..].
Qed.

(** The store the constructors and the atomic operations leave: a value
    buffer and a zero gradient buffer, both new, and one new variable. *)
(** X16. [set_to_scalar] on a variable of a well-formed store returns and leaves
    a well-formed store; and a second call overwrites the first: the store
    after [set_to_scalar v k'] is the same whether or not
    [set_to_scalar v k] ran before it. *)
Theorem set_to_scalar_keeps_store_wf (s : store E) p v k :
  store_wf s → variables s !! p = Some v →
  ∃ s',
    set_to_scalar p k s = Returned tt s'
    ∧ store_wf s'
    ∧ ∀ k', set_to_scalar p k' s' = set_to_scalar p k' s.
Proof.
  intros Hwf Hv.
  destruct (Hwf p v Hv) as ((tb & Htb) & _). pose proof Htb as (Hbuf & _).
  eexists. split; [by eapply set_to_scalar_run|]. split.
  - intros q w Hq. cbn in Hq.
    destruct (Hwf q w Hq) as ((qb & Hqb) & (gb & Hgb) & Hshape & Hoperands).
    split_and!; [| |done|done].
    + eapply holds_overwrite; [done..|]. by rewrite length_replicate.
    + eapply holds_overwrite; [done..|]. by rewrite length_replicate.
  - intros k'.
    erewrite (set_to_scalar_run _ p v (replicate (length tb) k));
      [|done|cbn; by rewrite lookup_insert_eq].
    erewrite (set_to_scalar_run s p v tb) by done.
    cbn. by rewrite insert_insert_eq, length_replicate.
Qed.

End WellFormed.

Lemma two_variables_wf : store_wf two_variables.
Proof.
  intros p v Hp. cbn in Hp.
  apply lookup_insert_Some in Hp as [[<- <-]|[_ Hp]];
    [|apply lookup_singleton_Some in Hp as [<- <-]].
  - split_and!.
    + exists [3; 3; 3; 3]%Z. split_and!; vm_compute; reflexivity.
    + exists [0; 0; 0; 0]%Z. split_and!; vm_compute; reflexivity.
    + reflexivity.
    + intros q Hq. by apply elem_of_nil in Hq.
  - split_and!.
    + exists [4; 4; 4; 4]%Z. split_and!; vm_compute; reflexivity.
    + exists [0; 0; 0; 0]%Z. split_and!; vm_compute; reflexivity.
    + reflexivity.
    + intros q Hq. by apply elem_of_nil in Hq.
Qed.

Lemma set_to_scalar_keeps_store_wf_witness :
  ∃ s',
    set_to_scalar 1%positive 7%Z two_variables = Returned tt s'
    ∧ store_wf s'
    ∧ ∀ k', set_to_scalar 1%positive k' s' = set_to_scalar 1%positive k' two_variables.
Proof.
  refine (set_to_scalar_keeps_store_wf two_variables 1%positive variable_a 7%Z _ _).
  - exact two_variables_wf.
  - vm_compute; reflexivity.
Defined.

(** ** Printing *)

Section DisplayFacts.
Context {E : Type} `{Scalar E}.
Variable format_f : E → string.
Variable format_llu : N → string.

Lemma display_row t row count :
  ∀ column (s : store E) buf,
    buffers s !! data t = Some buf →
    row * num_columns t + column + N.of_nat count ≤ size_modulus →
    (N.to_nat (row * num_columns t) + N.to_nat column + count ≤ length buf)%nat →
    for_range_printing column count (λ column,
      entry ← _tensor_get_entry_row_column t row column;
      printf (format_f entry +:+ " ")) s
    = Returned
        (render_entries format_f
           (take count (drop (N.to_nat (row * num_columns t) + N.to_nat column) buf)))
        s.
Proof.
  induction count as [|count IH]; intros column s buf Hbuf Hwrap Hlen.
  - by rewrite take_0.
  - set (base := N.to_nat (row * num_columns t)) in *.
    destruct (lookup_lt_is_Some_2 buf (base + N.to_nat column)) as [e He]; [lia|].
    change (for_range_printing column (S count) ?body) with
      (first ← body column;
       rest ← for_range_printing (N.succ column) count body;
       mret (first +:+ rest)).
    erewrite bind_returned; last first.
    { erewrite bind_returned; [reflexivity|].
      unfold _tensor_get_entry_row_column, wrap.
      rewrite N.mod_small by (unfold size_modulus in *; lia).
      eapply get_entry_run; [done|].
      replace (N.to_nat (row * num_columns t + column))
        with (base + N.to_nat column)%nat by (subst base; lia).
      done. }
    erewrite bind_returned; last first.
    { apply IH; [done|lia|lia]. }
    rewrite run_ret. f_equal.
    rewrite (drop_S _ _ _ He). cbn. do 3 f_equal.
    rewrite N2Nat.inj_succ. f_equal. lia.
Qed.

Lemma display_rows t count :
  ∀ row (s : store E) buf,
    buffers s !! data t = Some buf →
    (row + N.of_nat count) * num_columns t ≤ size_modulus →
    ((N.to_nat row + count) * N.to_nat (num_columns t) ≤ length buf)%nat →
    for_range_printing row count (λ row,
      entries ← for_range_printing 0 (N.to_nat (num_columns t)) (λ column,
        entry ← _tensor_get_entry_row_column t row column;
        printf (format_f entry +:+ " "));
      line_end ← printf newline;
      mret (entries +:+ line_end)) s
    = Returned
        (render_rows format_f (N.to_nat (num_columns t))
           (drop (N.to_nat row * N.to_nat (num_columns t)) buf) count)
        s.
Proof.
  set (C := N.to_nat (num_columns t)).
  induction count as [|count IH]; intros row s buf Hbuf Hwrap Hlen; [done|].
  change (for_range_printing row (S count) ?body) with
    (first ← body row;
     rest ← for_range_printing (N.succ row) count body;
     mret (first +:+ rest)).
  erewrite bind_returned; last first.
  { erewrite bind_returned; last first.
    { apply (display_row t row C 0 s buf); [done|subst C; lia|].
      subst C. rewrite N2Nat.inj_mul. lia. }
    reflexivity. }
  erewrite bind_returned; last first.
  { apply IH; [done|lia|lia]. }
  rewrite run_ret. f_equal. cbn [render_rows]. f_equal.
  - do 4 f_equal. subst C. rewrite N2Nat.inj_mul. change (N.to_nat 0) with 0%nat. lia.
  - f_equal. rewrite drop_drop, N2Nat.inj_succ. f_equal. lia.
Qed.

Lemma display_tensor_run (s : store E) t buf :
  holds s t buf → num_rows t * num_columns t < size_modulus →
  _display_tensor format_f format_llu t s
  = Returned (rendered format_f format_llu t buf) s.
Proof.
  intros (Hbuf & Hlen & _) Hsmall.
  assert (length buf = (N.to_nat (num_rows t) * N.to_nat (num_columns t))%nat) as Hlen'.
  { rewrite Hlen. unfold _tensor_get_size, wrap.
    rewrite N.mod_small by done. apply N2Nat.inj_mul. }
  unfold _display_tensor.
  erewrite bind_returned by reflexivity.
  erewrite bind_returned; last first.
  { apply (display_rows t (N.to_nat (num_rows t)) 0 s buf); [done| |].
    - rewrite N2Nat.id. unfold size_modulus in *. lia.
    - change (N.to_nat 0) with 0%nat. lia. }
  erewrite bind_returned by reflexivity.
  erewrite bind_returned by reflexivity.
  reflexivity.
Qed.

(** X18. [_display_tensor] on a live tensor whose number of entries does
    not wrap prints the header, then the entries of the buffer in their
    order, [num_columns] to a line and each followed by a space, then the
    two dimensions; it changes nothing in the store. *)
Theorem display_tensor_text (s : store E) t buf :
  holds s t buf → num_rows t * num_columns t < size_modulus →
  _display_tensor format_f format_llu t s
  = Returned
      (("Tensor:" +:+ newline)
       +:+ render_rows format_f (N.to_nat (num_columns t)) buf (N.to_nat (num_rows t))
       +:+ ("num_rows: " +:+ format_llu (num_rows t) +:+ newline)
       +:+ ("num_columns: " +:+ format_llu (num_columns t) +:+ newline))
      s.
Proof. intros Ht Hsmall. by apply display_tensor_run. Qed.

(** X19. [display_variable] prints the header ["Tensor:"] and then what
    [_display_tensor] prints for the value, which starts with that header
    again; [display_variable_with_gradient] prints the same for the value
    and then ["Gradient:"] and what [_display_tensor] prints for the
    gradient.  Neither changes the store. *)
Theorem display_variable_text (s : store E) p v tb gb :
  variables s !! p = Some v →
  holds s (tensor v) tb → holds s (gradient v) gb →
  num_rows (tensor v) * num_columns (tensor v) < size_modulus →
  shape (gradient v) = shape (tensor v) →
  display_variable format_f format_llu p s
  = Returned (("Tensor:" +:+ newline)
              +:+ rendered format_f format_llu (tensor v) tb) s
  ∧ display_variable_with_gradient format_f format_llu p s
    = Returned (("Tensor:" +:+ newline)
                +:+ rendered format_f format_llu (tensor v) tb
                +:+ ("Gradient:" +:+ newline)
                +:+ rendered format_f format_llu (gradient v) gb) s.
Proof.
  intros Hv Htb Hgb Hsmall Hshape.
  assert (num_rows (gradient v) * num_columns (gradient v) < size_modulus) as Hgsmall.
  { unfold shape in Hshape. injection Hshape as -> ->. done. }
  split.
  - unfold display_variable.
    erewrite bind_returned by by apply load_variable_run.
    erewrite bind_returned by reflexivity.
    erewrite bind_returned by by apply display_tensor_run.
    reflexivity.
  - unfold display_variable_with_gradient.
    erewrite bind_returned by by apply load_variable_run.
    erewrite bind_returned by reflexivity.
    erewrite bind_returned by by apply display_tensor_run.
    erewrite bind_returned by reflexivity.
    erewrite bind_returned by by apply display_tensor_run.
    reflexivity.
Qed.

End DisplayFacts.

(** ** Printing on stores of integer entries *)

Lemma display_tensor_text_witness :
  _display_tensor (λ _ : Z, "e") (λ _, "n") (Tensor 1 2 2) two_tensors
  = Returned
      (("Tensor:" +:+ newline)
       +:+ render_rows (λ _ : Z, "e") 2 [1; 2; 3; 4]%Z 2
       +:+ ("num_rows: " +:+ "n" +:+ newline)
       +:+ ("num_columns: " +:+ "n" +:+ newline))
      two_tensors.
Proof.
  refine (display_tensor_text (λ _ : Z, "e") (λ _, "n") two_tensors (Tensor 1 2 2)
            [1; 2; 3; 4]%Z _ _).
  - split_and!; vm_compute; reflexivity.
  - reflexivity.
Defined.

Lemma display_variable_text_witness :
  display_variable (λ _ : Z, "e") (λ _, "n") 1%positive two_variables
  = Returned (("Tensor:" +:+ newline)
              +:+ rendered (λ _ : Z, "e") (λ _, "n") (Tensor 1 2 2) [3; 3; 3; 3]%Z)
      two_variables
  ∧ display_variable_with_gradient (λ _ : Z, "e") (λ _, "n") 1%positive two_variables
    = Returned (("Tensor:" +:+ newline)
                +:+ rendered (λ _ : Z, "e") (λ _, "n") (Tensor 1 2 2) [3; 3; 3; 3]%Z
                +:+ ("Gradient:" +:+ newline)
                +:+ rendered (λ _ : Z, "e") (λ _, "n") (Tensor 2 2 2) [0; 0; 0; 0]%Z)
        two_variables.
Proof.
  refine (display_variable_text (λ _ : Z, "e") (λ _, "n") two_variables 1%positive
            variable_a [3; 3; 3; 3]%Z [0; 0; 0; 0]%Z _ _ _ _ _).
  - vm_compute; reflexivity.
  - split_and!; vm_compute; reflexivity.
  - split_and!; vm_compute; reflexivity.
  - reflexivity.
  - reflexivity.
Defined.

(** * The dead literal of [_new_tensor]

    Every tensor the code creates is the result of [_new_tensor], so that
    every function that creates a tensor hands out, and most of them use,
    the address of a struct that is dead.  The runs below are made with the
    storage of that struct used again after the return
    ([struct_clobbered]); they start from stores whose tensors and
    variables are live. *)

(** C6 fails on the code: on the two 2x2 tensors [1 2 3 4] and
    [10 20 30 40] each elementwise operation allocates the buffer of the
    result, and then stops at the first entry it writes, which it writes
    through the dead struct that [_new_tensor_like] returned: no tensor is
    returned.  The buffer that was allocated is left in the store, and no
    other buffer has changed. *)
Theorem elementwise_operations_write_dead_literal :
  let abandoned :=
    Store (<[3%positive := [0; 0; 0; 0]%Z]> (buffers two_tensors))
          (variables two_tensors) in
  _tensor_add (literal := struct_clobbered) (Tensor 1 2 2) (Tensor 2 2 2) two_tensors
    = Failed InvalidPointer abandoned
  ∧ _tensor_subtract (literal := struct_clobbered) (Tensor 1 2 2) (Tensor 2 2 2) two_tensors
    = Failed InvalidPointer abandoned
  ∧ _tensor_multiply (literal := struct_clobbered) (Tensor 1 2 2) (Tensor 2 2 2) two_tensors
    = Failed InvalidPointer abandoned.
Proof. cbn zeta. split_and!; vm_compute; reflexivity. Qed.

(** C9 fails on the code: on the 2x2 tensor [1 2 3 4], [_copy_tensor]
    allocates a buffer and then copies through the dead struct that
    [_new_tensor_like] returned: the copy stops there and no tensor is
    returned. *)
Theorem copy_tensor_writes_dead_literal :
  _copy_tensor (literal := struct_clobbered) (Tensor 1 2 2) two_tensors
  = Failed InvalidPointer
      (Store (<[3%positive := [0; 0; 0; 0]%Z]> (buffers two_tensors))
             (variables two_tensors)).
Proof. vm_compute. reflexivity. Qed.

(** C8 fails on the code: [_new_variable_from_tensor] on the 2x2 tensor
    [1 2 3 4] returns a variable whose gradient is the dead struct that
    [_new_tensor_zeros_like] returned.  What is read there is not a 2x2
    tensor of zeros: the gradient of the new variable has neither the
    shape of its value nor zero entries.  [new_variable_like] on the 2x2
    variable [a] returns a variable whose value and gradient are both dead
    structs, with no buffer of zeros behind the gradient; [copy_variable]
    and the atomic operations on [a] and [b] stop at a write through a
    dead struct and create no variable. *)
Theorem created_gradient_is_dead_literal :
  (∃ p s' v,
     _new_variable_from_tensor (literal := struct_clobbered) (Tensor 1 2 2) two_tensors
       = Returned p s'
     ∧ variables s' !! p = Some v
     ∧ tensor v = Tensor 1 2 2
     ∧ shape (gradient v) ≠ shape (tensor v)
     ∧ buffers s' !! data (gradient v) = None
     ∧ ¬ created_zeroed s' p)
  ∧ (∃ p s' v,
       new_variable_like (literal := struct_clobbered) 1%positive two_variables
         = Returned p s'
       ∧ variables s' !! p = Some v
       ∧ buffers s' !! data (gradient v) = None
       ∧ ¬ created_zeroed s' p)
  ∧ returned_value
      (copy_variable (literal := struct_clobbered) 1%positive two_variables) = None
  ∧ (∀ use_grad,
       returned_value
         (_add (literal := struct_clobbered) 1%positive 2%positive use_grad two_variables)
         = None
       ∧ returned_value
           (_subtract (literal := struct_clobbered) 1%positive 2%positive use_grad
              two_variables)
         = None
       ∧ returned_value
           (_multiply (literal := struct_clobbered) 1%positive 2%positive use_grad
              two_variables)
         = None).
Proof.
  split_and!.
  - eexists _, _, _. split; [vm_compute; reflexivity|].
    split; [vm_compute; reflexivity|].
    split_and!; [done|by vm_compute|vm_compute; reflexivity|].
    intros (v & Hv & Hshape & _). vm_compute in Hv. injection Hv as <-.
    vm_compute in Hshape. discriminate.
  - eexists _, _, _. split; [vm_compute; reflexivity|].
    split; [vm_compute; reflexivity|].
    split; [vm_compute; reflexivity|].
    intros (v & Hv & _ & Hzero). vm_compute in Hv. injection Hv as <-.
    vm_compute in Hzero. discriminate.
  - vm_compute. reflexivity.
  - intros [|]; split_and!; vm_compute; reflexivity.
Qed.

(** C5 fails on the code: [add] on the 2x2 variables [a] and [b] stops in
    [_tensor_add], at the write through a dead struct, so that no child is
    returned; and on a child [c] of [a] and [b] whose tensors are live,
    [_add_grad_backwards] stops in [_copy_tensor] in the same way, for
    either operand, and returns no copy of the gradient of [c]. *)
Theorem add_uses_dead_literal :
  add (literal := struct_clobbered) 1%positive 2%positive two_variables
    = Failed InvalidPointer
        (Store (<[5%positive := [0; 0; 0; 0]%Z]> (buffers two_variables))
               (variables two_variables))
  ∧ _add_grad_backwards (literal := struct_clobbered) 1%positive 2%positive 3%positive
      after_add
    = Failed InvalidPointer
        (Store (<[7%positive := [0; 0; 0; 0]%Z]> (buffers after_add))
               (variables after_add))
  ∧ _add_grad_backwards (literal := struct_clobbered) 2%positive 1%positive 3%positive
      after_add
    = Failed InvalidPointer
        (Store (<[7%positive := [0; 0; 0; 0]%Z]> (buffers after_add))
               (variables after_add)).
Proof. split_and!; vm_compute; reflexivity. Qed.

(** C4 fails on the code: [multiply] on the 2x2 variables [a] and [b]
    stops in [_tensor_multiply], at the write through a dead struct, so
    that no child is returned; and on a child [c] of [a] and [b] whose
    tensors are live and whose gradient is all ones,
    [_multiply_grad_backwards] stops in [_copy_tensor] in the same way,
    for either operand, before it multiplies by the other operand. *)
Theorem multiply_uses_dead_literal :
  multiply (literal := struct_clobbered) 1%positive 2%positive two_variables
    = Failed InvalidPointer
        (Store (<[5%positive := [0; 0; 0; 0]%Z]> (buffers two_variables))
               (variables two_variables))
  ∧ _multiply_grad_backwards (literal := struct_clobbered) 1%positive 2%positive 3%positive
      after_multiply
    = Failed InvalidPointer
        (Store (<[7%positive := [0; 0; 0; 0]%Z]> (buffers after_multiply))
               (variables after_multiply))
  ∧ _multiply_grad_backwards (literal := struct_clobbered) 2%positive 1%positive 3%positive
      after_multiply
    = Failed InvalidPointer
        (Store (<[7%positive := [0; 0; 0; 0]%Z]> (buffers after_multiply))
               (variables after_multiply)).
Proof. split_and!; vm_compute; reflexivity. Qed.
